(** * material-lab: the material resolver and the scene composition of
      [src/App.tsx], embedded in Rocq.

    The file follows the source top to bottom: a small model of the
    JavaScript values the program handles, the three static catalogs
    ([materials], [shapes], [environments]), the [Shape] component with its
    choice between [meshPhysicalMaterial] and [meshStandardMaterial], the
    [Scene] component, and the state that [App] keeps with [useState].
    The theorems come after the definitions. *)

From Stdlib Require Import QArith String List Bool Lia.
Import ListNotations.
Open Scope string_scope.
Set Warnings "-register-all".

(** ** JavaScript values *)

Module JS.

(** A JavaScript number.  Finite numbers are kept as the exact rational the
    decimal literal of the source denotes; the program only stores, compares
    and tests them, it does no arithmetic on them beyond [Math.PI / n]. *)
Inductive number : Type :=
| NaN
| PosInf
| NegInf
| Fin (q : Q).

(** The values a property of a material, or an attribute of an element, can
    hold.  [VColor c] stands for [new THREE.Color(c)]. *)
Inductive jsval : Type :=
| VUndef
| VNull
| VBool (b : bool)
| VNum (n : number)
| VStr (s : string)
| VArr (items : list jsval)
| VColor (c : jsval).

Definition num (q : Q) : jsval := VNum (Fin q).
Arguments num q%_Q.

(** ToBoolean: [0], [NaN], [""], [null], [undefined] and [false] are falsy,
    everything else is truthy. *)
Definition num_truthy (n : number) : bool :=
  match n with
  | NaN => false
  | PosInf | NegInf => true
  | Fin q => negb (Qeq_bool q 0)
  end.

Definition truthy (v : jsval) : bool :=
  match v with
  | VUndef | VNull => false
  | VBool b => b
  | VNum n => num_truthy n
  | VStr s => negb (s =? "")
  | VArr _ | VColor _ => true
  end.

(** [a || b] *)
Definition js_or (a b : jsval) : jsval := if truthy a then a else b.

(** [v > 0] for a value that may be absent: the comparison is false on
    [undefined] and on [NaN]. *)
Definition num_gt0 (n : number) : bool :=
  match n with
  | NaN | NegInf => false
  | PosInf => true
  | Fin q => negb (Qle_bool q 0)
  end.

Definition gt0 (v : jsval) : bool :=
  match v with
  | VNum n => num_gt0 n
  | _ => false
  end.

(** An object with string keys, in insertion order. *)
Definition dict (A : Type) : Type := list (string * A).
Definition obj : Type := dict jsval.

Fixpoint lookup {A : Type} (k : string) (o : dict A) : option A :=
  match o with
  | [] => None
  | (k', v) :: rest => if k =? k' then Some v else lookup k rest
  end.

(** [o[k]] and [o.k] on the object's own properties: a missing property
    reads as [undefined].  (No key the program uses is a name inherited from
    [Object.prototype].) *)
Definition get (k : string) (o : obj) : jsval :=
  match lookup k o with
  | Some v => v
  | None => VUndef
  end.

(** [k in o] *)
Definition has_key {A : Type} (k : string) (o : dict A) : bool :=
  match lookup k o with
  | Some _ => true
  | None => false
  end.

(** [Object.keys(o)] *)
Definition Object_keys {A : Type} (o : dict A) : list string := map fst o.

(** [o[k] = v]: an existing property keeps its place, a new one is added at
    the end. *)
Fixpoint set {A : Type} (k : string) (v : A) (o : dict A) : dict A :=
  match o with
  | [] => [(k, v)]
  | (k', v') :: rest =>
      if k =? k' then (k', v) :: rest else (k', v') :: set k v rest
  end.

Definition mem (k : string) (ks : list string) : bool :=
  existsb (String.eqb k) ks.

(** [const { k1, ..., kn, ...rest } = o]: the rest object holds every
    property of [o] that is not named in the pattern. *)
Definition omit {A : Type} (ks : list string) (o : dict A) : dict A :=
  filter (fun kv => negb (mem (fst kv) ks)) o.

(** [Math.max] and [Math.min] on two numbers; [NaN] is contagious. *)
Definition num_leb (a b : number) : bool :=
  match a, b with
  | NaN, _ | _, NaN => false
  | NegInf, _ => true
  | _, PosInf => true
  | Fin x, Fin y => Qle_bool x y
  | _, _ => false
  end.

Definition Math_max (a b : number) : number :=
  match a, b with
  | NaN, _ | _, NaN => NaN
  | _, _ => if num_leb a b then b else a
  end.

Definition Math_min (a b : number) : number :=
  match a, b with
  | NaN, _ | _, NaN => NaN
  | _, _ => if num_leb b a then b else a
  end.

(** [a / b] on finite numbers with a non-zero divisor, which is all the
    program divides; the quotient is the exact one. *)
Definition num_div (a b : number) : number :=
  match a, b with
  | Fin x, Fin y => if Qeq_bool y 0 then NaN else Fin (x / y)
  | _, _ => NaN
  end.

(** Equality of numbers as values ([1/2] and [2/4] are the same number). *)
Definition num_eq (a b : number) : Prop :=
  match a, b with
  | NaN, NaN => True
  | PosInf, PosInf => True
  | NegInf, NegInf => True
  | Fin x, Fin y => x == y
  | _, _ => False
  end.

(** What a call either returns or throws. *)
Inductive error : Type :=
| TypeError.

Inductive result (A : Type) : Type :=
| Ok (a : A)
| Throw (e : error).
Arguments Ok {A} a.
Arguments Throw {A} e.

End JS.
Import JS.

(** ** Elements

    What a component returns.  [ShapeEl] is the element [<Shape .../>]
    before React calls the component; [Lit] is a child that is a plain value
    (React draws nothing for [false], [null] and [undefined]). *)
Inductive node : Type :=
| Elem (tag : string) (key : option jsval) (props : obj) (children : list node)
| Lit (v : jsval)
| ShapeEl (shape : string) (materialProps : option obj).

Definition el (tag : string) (props : obj) (children : list node) : node :=
  Elem tag None props children.

(** ** The catalogs (lines 20-189) *)

Definition materials : dict obj :=
  [ (* Metals *)
    ("chrome",
      [("name", VStr "Chrome"); ("category", VStr "metal");
       ("color", VStr "#e8e8e8"); ("metalness", num 1);
       ("roughness", num 0.05); ("envMapIntensity", num 1.5)]);
    ("gold",
      [("name", VStr "Gold"); ("category", VStr "metal");
       ("color", VStr "#ffd700"); ("metalness", num 1);
       ("roughness", num 0.1); ("envMapIntensity", num 1.2)]);
    ("copper",
      [("name", VStr "Copper"); ("category", VStr "metal");
       ("color", VStr "#b87333"); ("metalness", num 1);
       ("roughness", num 0.15); ("envMapIntensity", num 1)]);
    ("brushedSteel",
      [("name", VStr "Brushed Steel"); ("category", VStr "metal");
       ("color", VStr "#8a8a8a"); ("metalness", num 0.95);
       ("roughness", num 0.35); ("envMapIntensity", num 0.8)]);
    ("blackMetal",
      [("name", VStr "Anodized Black"); ("category", VStr "metal");
       ("color", VStr "#1a1a1a"); ("metalness", num 0.9);
       ("roughness", num 0.2); ("envMapIntensity", num 1)]);
    (* Plastics *)
    ("glossyPlastic",
      [("name", VStr "Glossy Plastic"); ("category", VStr "plastic");
       ("color", VStr "#ff3366"); ("metalness", num 0);
       ("roughness", num 0.1); ("envMapIntensity", num 0.8)]);
    ("mattePlastic",
      [("name", VStr "Matte Plastic"); ("category", VStr "plastic");
       ("color", VStr "#3366ff"); ("metalness", num 0);
       ("roughness", num 0.7); ("envMapIntensity", num 0.3)]);
    ("satin",
      [("name", VStr "Satin Finish"); ("category", VStr "plastic");
       ("color", VStr "#33ff66"); ("metalness", num 0);
       ("roughness", num 0.4); ("envMapIntensity", num 0.5)]);
    (* Ceramics *)
    ("porcelain",
      [("name", VStr "Porcelain"); ("category", VStr "ceramic");
       ("color", VStr "#f5f5f0"); ("metalness", num 0);
       ("roughness", num 0.15); ("envMapIntensity", num 0.6)]);
    ("ceramic",
      [("name", VStr "Glazed Ceramic"); ("category", VStr "ceramic");
       ("color", VStr "#2255aa"); ("metalness", num 0.05);
       ("roughness", num 0.08); ("envMapIntensity", num 0.7)]);
    (* Rubber/Soft *)
    ("rubber",
      [("name", VStr "Rubber"); ("category", VStr "soft");
       ("color", VStr "#222222"); ("metalness", num 0);
       ("roughness", num 0.9); ("envMapIntensity", num 0.1)]);
    ("velvet",
      [("name", VStr "Velvet"); ("category", VStr "soft");
       ("color", VStr "#660033"); ("metalness", num 0);
       ("roughness", num 0.95); ("envMapIntensity", num 0.05)]);
    (* Special *)
    ("glass",
      [("name", VStr "Glass"); ("category", VStr "special");
       ("color", VStr "#ffffff"); ("metalness", num 0);
       ("roughness", num 0); ("transmission", num 0.95);
       ("thickness", num 0.5); ("envMapIntensity", num 1)]);
    ("emission",
      [("name", VStr "Emissive"); ("category", VStr "special");
       ("color", VStr "#02d7f2"); ("metalness", num 0);
       ("roughness", num 0.5); ("emissive", VStr "#02d7f2");
       ("emissiveIntensity", num 2); ("envMapIntensity", num 0.3)]);
    ("holographic",
      [("name", VStr "Holographic"); ("category", VStr "special");
       ("color", VStr "#ff00ff"); ("metalness", num 1);
       ("roughness", num 0.1); ("iridescence", num 1);
       ("iridescenceIOR", num 1.5); ("envMapIntensity", num 1.5)]) ].

Definition shapes : dict string :=
  [ ("sphere", "Sphere");
    ("cube", "Cube");
    ("roundedBox", "Rounded Box");
    ("torus", "Torus");
    ("torusKnot", "Torus Knot");
    ("icosahedron", "Icosahedron");
    ("octahedron", "Octahedron");
    ("dodecahedron", "Dodecahedron") ].

Definition environments : dict string :=
  [ ("studio", "studio");
    ("city", "city");
    ("sunset", "sunset");
    ("dawn", "dawn");
    ("night", "night");
    ("forest", "forest");
    ("apartment", "apartment");
    ("warehouse", "warehouse");
    ("park", "park");
    ("lobby", "lobby") ].

(** ** The [Shape] component (lines 191-234) *)

(** The names the destructuring pattern of line 193 takes out of
    [materialProps]; [baseProps] is the rest. *)
Definition featureProps : list string :=
  ["transmission"; "thickness"; "emissive"; "emissiveIntensity";
   "iridescence"; "iridescenceIOR"].

Definition baseProps (materialProps : obj) : obj :=
  omit featureProps materialProps.

(** [const isPhysical = transmission || iridescence] *)
Definition isPhysical (materialProps : obj) : jsval :=
  js_or (get "transmission" materialProps) (get "iridescence" materialProps).

(** [const material = isPhysical ? <meshPhysicalMaterial .../> :
    <meshStandardMaterial .../>].  The attributes written after
    [{...baseProps}] are added to a copy of [baseProps].  (React keeps the
    names [key] and [ref] for itself and takes them out of the attributes;
    no definition of the catalog has a property of either name, and what is
    said below about the full list of attributes is said for definitions
    without them, see [no_reserved].) *)
Definition material (materialProps : obj) : node :=
  let transmission := get "transmission" materialProps in
  let thickness := get "thickness" materialProps in
  let emissive := get "emissive" materialProps in
  let emissiveIntensity := get "emissiveIntensity" materialProps in
  let iridescence := get "iridescence" materialProps in
  let iridescenceIOR := get "iridescenceIOR" materialProps in
  if truthy (isPhysical materialProps) then
    el "meshPhysicalMaterial"
      (set "iridescenceIOR" iridescenceIOR
        (set "iridescence" iridescence
          (set "thickness" thickness
            (set "transmission" transmission (baseProps materialProps)))))
      []
  else
    el "meshStandardMaterial"
      (set "emissiveIntensity" (js_or emissiveIntensity (num 0))
        (set "emissive" (if truthy emissive then VColor emissive else VUndef)
          (baseProps materialProps)))
      [].

(** The [switch (shape)] of lines 214-233. *)
Definition geometry (shape : string) (material : node) : node :=
  if shape =? "sphere" then
    el "Sphere" [("args", VArr [num 1; num 64; num 64])] [material]
  else if shape =? "cube" then
    el "Box" [("args", VArr [num 1.6; num 1.6; num 1.6])] [material]
  else if shape =? "roundedBox" then
    el "RoundedBox"
      [("args", VArr [num 1.5; num 1.5; num 1.5]);
       ("radius", num 0.15); ("smoothness", num 4)] [material]
  else if shape =? "torus" then
    el "Torus" [("args", VArr [num 0.8; num 0.35; num 32; num 64])] [material]
  else if shape =? "torusKnot" then
    el "TorusKnot" [("args", VArr [num 0.7; num 0.25; num 128; num 32])]
      [material]
  else if shape =? "icosahedron" then
    el "Icosahedron" [("args", VArr [num 1; num 0])] [material]
  else if shape =? "octahedron" then
    el "Octahedron" [("args", VArr [num 1.2; num 0])] [material]
  else if shape =? "dodecahedron" then
    el "Dodecahedron" [("args", VArr [num 1; num 0])] [material]
  else
    el "Sphere" [("args", VArr [num 1; num 64; num 64])] [material].

(** [function Shape({ shape, materialProps })].  [materialProps] is what
    [materials[materialKey]] gave: an object, or [undefined] ([None]) for a
    key the catalog does not have, and destructuring [undefined] throws. *)
Definition Shape (shape : string) (materialProps : option obj) : result node :=
  match materialProps with
  | None => Throw TypeError
  | Some mp => Ok (geometry shape (material mp))
  end.

(** ** The [Scene] component (lines 236-300)

    [Math.PI] is the constant of the JavaScript runtime; the development is
    parametric in its value. *)
Section SceneDef.

Variable Math_PI : Q.

Definition Scene (shape materialKey environment : string)
    (envBlur : number) (showEffects : bool) : node :=
  let mat := lookup materialKey materials in
  el "Fragment" []
    [ (* Lighting *)
      el "ambientLight" [("intensity", num 0.2)] [];
      el "directionalLight"
        [("position", VArr [num 5; num 5; num 5]); ("intensity", num 0.5);
         ("castShadow", VBool true)] [];
      el "directionalLight"
        [("position", VArr [num (-5); num 3; num (-5)]);
         ("intensity", num 0.3); ("color", VStr "#ff9966")] [];
      (* Environment map for reflections + background *)
      Elem "Environment" (Some (VStr environment))
        [("preset", VStr environment); ("background", VBool true);
         ("blur", VNum envBlur)] [];
      (* Main object with float animation *)
      el "Float"
        [("speed", num 1.5); ("rotationIntensity", num 0.5);
         ("floatIntensity", num 0.5)]
        [ShapeEl shape mat];
      (* Ground shadows *)
      el "ContactShadows"
        [("position", VArr [num 0; num (-1.5); num 0]); ("opacity", num 0.5);
         ("scale", num 8); ("blur", num 2); ("far", num 3)] [];
      (* Controls *)
      el "OrbitControls"
        [("enablePan", VBool false);
         ("minDistance", num 2.5);
         ("maxDistance", num 8);
         ("minPolarAngle", VNum (num_div (Fin Math_PI) (Fin 6)));
         ("maxPolarAngle", VNum (num_div (Fin Math_PI) (Fin 2)));
         ("autoRotate", VBool true);
         ("autoRotateSpeed", num 0.5)] [];
      (* Post-processing: [showEffects && (...)] *)
      if showEffects then
        el "EffectComposer" []
          [ el "Bloom"
              [("luminanceThreshold", num 0.8);
               ("luminanceSmoothing", num 0.9);
               ("intensity", num 0.4)] [];
            el "Vignette"
              [("eskil", VBool false); ("offset", num 0.1);
               ("darkness", num 0.5)] [] ]
      else Lit (VBool false) ].

(** ** The state of [App] (lines 320-327) and its setters *)

Record AppState : Type := mkAppState {
  currentMaterial : string;
  currentShape : string;
  currentEnv : string;
  envBlur : number;
  showEffects : bool;
  antialias : bool;
  panelOpen : bool
}.

(** The arguments of the seven [useState] calls. *)
Definition initialState : AppState :=
  {| currentMaterial := "chrome";
     currentShape := "sphere";
     currentEnv := "studio";
     envBlur := Fin 0.6;
     showEffects := true;
     antialias := true;
     panelOpen := true |}.

(** A [useState] setter called with a value replaces that one field. *)
Definition setCurrentMaterial (k : string) (st : AppState) : AppState :=
  mkAppState k (currentShape st) (currentEnv st) (envBlur st)
    (showEffects st) (antialias st) (panelOpen st).

Definition setCurrentShape (k : string) (st : AppState) : AppState :=
  mkAppState (currentMaterial st) k (currentEnv st) (envBlur st)
    (showEffects st) (antialias st) (panelOpen st).

Definition setCurrentEnv (k : string) (st : AppState) : AppState :=
  mkAppState (currentMaterial st) (currentShape st) k (envBlur st)
    (showEffects st) (antialias st) (panelOpen st).

Definition setEnvBlur (v : number) (st : AppState) : AppState :=
  mkAppState (currentMaterial st) (currentShape st) (currentEnv st) v
    (showEffects st) (antialias st) (panelOpen st).

Definition setShowEffects (b : bool) (st : AppState) : AppState :=
  mkAppState (currentMaterial st) (currentShape st) (currentEnv st)
    (envBlur st) b (antialias st) (panelOpen st).

Definition setAntialias (b : bool) (st : AppState) : AppState :=
  mkAppState (currentMaterial st) (currentShape st) (currentEnv st)
    (envBlur st) (showEffects st) b (panelOpen st).

Definition setPanelOpen (b : bool) (st : AppState) : AppState :=
  mkAppState (currentMaterial st) (currentShape st) (currentEnv st)
    (envBlur st) (showEffects st) (antialias st) b.

(** The background-blur slider of lines 416-424.  [parsed] is the number
    [parseFloat(e.target.value)] gave. *)
Definition blurSlider (st : AppState) : node :=
  el "input"
    [("type", VStr "range"); ("min", VStr "0"); ("max", VStr "1");
     ("step", VStr "0.01"); ("value", VNum (envBlur st));
     ("className", VStr "w-full accent-[var(--primary)]")] [].

Definition blurSlider_onChange (parsed : number) (st : AppState) : AppState :=
  setEnvBlur parsed st.

(** The [<Scene .../>] that [App] puts in the canvas (lines 501-507). *)
Definition App_scene (st : AppState) : node :=
  Scene (currentShape st) (currentMaterial st) (currentEnv st)
    (envBlur st) (showEffects st).

End SceneDef.

(** ** Rendering: React calls the components of a tree

    [render] replaces every [<Shape .../>] by what [Shape] returns; what
    [Shape] throws aborts the rendering. *)
Fixpoint render (n : node) : result node :=
  match n with
  | Elem tag key props children =>
      let fix render_all (l : list node) : result (list node) :=
        match l with
        | [] => Ok []
        | c :: rest =>
            match render c with
            | Throw e => Throw e
            | Ok c' =>
                match render_all rest with
                | Throw e => Throw e
                | Ok rest' => Ok (c' :: rest')
                end
            end
        end in
      match render_all children with
      | Throw e => Throw e
      | Ok children' => Ok (Elem tag key props children')
      end
  | Lit v => Ok (Lit v)
  | ShapeEl shape materialProps => Shape shape materialProps
  end.

(** ** Reading a tree *)

(** The node and everything below it, parents before children, in document
    order. *)
Fixpoint descendants (n : node) : list node :=
  n :: match n with
       | Elem _ _ _ children => flat_map descendants children
       | _ => []
       end.

Definition tag_of (n : node) : option string :=
  match n with
  | Elem tag _ _ _ => Some tag
  | _ => None
  end.

Definition has_tag (t : string) (n : node) : bool :=
  match n with
  | Elem tag _ _ _ => tag =? t
  | _ => false
  end.

Definition by_tag (t : string) (n : node) : list node :=
  filter (has_tag t) (descendants n).

Definition props_of (n : node) : obj :=
  match n with
  | Elem _ _ props _ => props
  | _ => []
  end.

Definition prop (k : string) (n : node) : jsval := get k (props_of n).

Definition children_of (n : node) : list node :=
  match n with
  | Elem _ _ _ children => children
  | _ => []
  end.

(** ** The words of the specification, for comparison with the code *)

(** The two shading models, by the element that stands for them. *)
Definition physicalTag : string := "meshPhysicalMaterial".
Definition standardTag : string := "meshStandardMaterial".

(** "clamped to [0,1]": [min(1, max(0, v))]. *)
Definition clamp01 (v : number) : number :=
  Math_min (Fin 1) (Math_max (Fin 0) v).

(** The setter as the specification describes it. *)
Definition spec_setBackgroundBlur (v : number) (st : AppState) : AppState :=
  mkAppState (currentMaterial st) (currentShape st) (currentEnv st)
    (clamp01 v) (showEffects st) (antialias st) (panelOpen st).

(** [0 <= v <= 1] *)
Definition in_unit_interval (v : number) : bool :=
  num_leb (Fin 0) v && num_leb v (Fin 1).

(** An optional feature field of a material definition as the data model
    types it: absent, or a number that is not negative. *)
Definition feature_in_range (v : jsval) : bool :=
  match v with
  | VUndef => true
  | VNum (Fin q) => Qle_bool 0 q
  | _ => false
  end.

(** The feature groups of a material definition. *)
Definition transmission_group (m : obj) : bool :=
  has_key "transmission" m || has_key "thickness" m.

Definition iridescence_group (m : obj) : bool :=
  has_key "iridescence" m || has_key "iridescenceIOR" m.

Definition emissive_group (m : obj) : bool :=
  has_key "emissive" m || has_key "emissiveIntensity" m.

Definition groups_populated (m : obj) : nat :=
  (if transmission_group m then 1 else 0)
  + (if iridescence_group m then 1 else 0)
  + (if emissive_group m then 1 else 0).

(** The feature fields a definition has, in the order it declares them. *)
Definition features (m : obj) : list string :=
  filter (fun k => mem k featureProps) (Object_keys m).

(** ** Material definitions used as inputs below *)

(** The catalog's [glass]. *)
Definition glass : obj :=
  [("name", VStr "Glass"); ("category", VStr "special");
   ("color", VStr "#ffffff"); ("metalness", num 0);
   ("roughness", num 0); ("transmission", num 0.95);
   ("thickness", num 0.5); ("envMapIntensity", num 1)].

(** The catalog's [emission]. *)
Definition emission : obj :=
  [("name", VStr "Emissive"); ("category", VStr "special");
   ("color", VStr "#02d7f2"); ("metalness", num 0);
   ("roughness", num 0.5); ("emissive", VStr "#02d7f2");
   ("emissiveIntensity", num 2); ("envMapIntensity", num 0.3)].

(** A definition that is not in the catalog: transmissive and emissive at
    once. *)
Definition glowingGlass : obj :=
  [("name", VStr "Glowing Glass"); ("category", VStr "special");
   ("color", VStr "#ffffff"); ("metalness", num 0);
   ("roughness", num 0); ("transmission", num 0.5);
   ("emissive", VStr "#ff0000"); ("emissiveIntensity", num 2);
   ("envMapIntensity", num 1)].

(** A definition that is not in the catalog: an emissive intensity and no
    emissive colour. *)
Definition intensityOnly : obj :=
  [("name", VStr "Intensity Only"); ("category", VStr "special");
   ("color", VStr "#02d7f2"); ("metalness", num 0);
   ("roughness", num 0.5); ("emissiveIntensity", num 2);
   ("envMapIntensity", num 0.3)].

(** An angle given in degrees, in radians. *)
Definition degrees (Math_PI : Q) (d : Q) : number :=
  Fin (d * Math_PI / 180).

(** ** Names every object literal inherits

    [o[k]] on an object literal also finds what [Object.prototype] defines.
    [lookup] reads own properties only, so it stands for [o[k]] on the keys
    that are not in this list. *)
Definition Object_prototype_names : list string :=
  ["constructor"; "hasOwnProperty"; "isPrototypeOf"; "propertyIsEnumerable";
   "toLocaleString"; "toString"; "valueOf"; "__proto__";
   "__defineGetter__"; "__defineSetter__"; "__lookupGetter__";
   "__lookupSetter__"].

Definition own_name (k : string) : bool :=
  negb (mem k Object_prototype_names).

(** ** The [CategoryBadge] component (lines 302-317) *)

Definition colors : dict string :=
  [ ("metal", "bg-amber-500/20 text-amber-400 border-amber-500/30");
    ("plastic", "bg-pink-500/20 text-pink-400 border-pink-500/30");
    ("ceramic", "bg-blue-500/20 text-blue-400 border-blue-500/30");
    ("soft", "bg-purple-500/20 text-purple-400 border-purple-500/30");
    ("special", "bg-cyan-500/20 text-cyan-400 border-cyan-500/30") ].

Definition badgeBaseClass : string :=
  "text-[9px] px-1.5 py-0.5 rounded border uppercase tracking-wider ".

(** [colors[category] || ''] *)
Definition badgeColor (category : string) : string :=
  match lookup category colors with
  | Some c => if c =? "" then "" else c
  | None => ""
  end.

Definition CategoryBadge (category : string) : node :=
  el "span" [("className", VStr (badgeBaseClass ++ badgeColor category))]
    [Lit (VStr category)].

(** ** The selectors of the sidebar (lines 344-408)

    An [onClick] or [onChange] attribute is a closure; it is modelled by the
    function of the state it performs, beside the element. *)

Definition shapeButtonBase : string :=
  "text-xs py-1.5 px-2 rounded border transition-all ".
Definition shapeButtonActive : string :=
  "bg-[var(--primary)]/20 border-[var(--primary)] text-[var(--primary)]".
Definition shapeButtonIdle : string :=
  "border-[var(--border)] text-[var(--muted)] hover:border-[var(--primary)]/50".

(** One button of [Object.keys(shapes).map(key => <button .../>)]. *)
Definition shapeButton (currentShape key : string) : node :=
  Elem "button" (Some (VStr key))
    [("className",
      VStr (shapeButtonBase
            ++ (if currentShape =? key then shapeButtonActive
                else shapeButtonIdle)))]
    [Lit (match lookup key shapes with
          | Some label => VStr label
          | None => VUndef
          end)].

Definition shapeButton_onClick (key : string) (st : AppState) : AppState :=
  setCurrentShape key st.

Definition shapeSelector (st : AppState) : list node :=
  map (shapeButton (currentShape st)) (Object_keys shapes).

(** [s.toUpperCase()], [s.charAt(i)] and [s.slice(i)] on ASCII strings. *)
Definition toUpperCase_ascii (c : Ascii.ascii) : Ascii.ascii :=
  let n := Ascii.nat_of_ascii c in
  if Nat.leb 97 n && Nat.leb n 122 then Ascii.ascii_of_nat (n - 32) else c.

Fixpoint toUpperCase (s : string) : string :=
  match s with
  | EmptyString => EmptyString
  | String c rest => String (toUpperCase_ascii c) (toUpperCase rest)
  end.

Definition charAt (i : nat) (s : string) : string :=
  match String.get i s with
  | Some c => String c EmptyString
  | None => EmptyString
  end.

Definition slice (i : nat) (s : string) : string :=
  substring i (String.length s - i) s.

Definition is_ascii (s : string) : bool :=
  forallb (fun c => Nat.ltb (Ascii.nat_of_ascii c) 128)
    (list_ascii_of_string s).

(** [key.charAt(0).toUpperCase() + key.slice(1)] *)
Definition envLabel (key : string) : string :=
  toUpperCase (charAt 0 key) ++ slice 1 key.

Definition envOption (key : string) : node :=
  Elem "option" (Some (VStr key)) [("value", VStr key)]
    [Lit (VStr (envLabel key))].

Definition envSelect (st : AppState) : node :=
  el "select"
    [("value", VStr (currentEnv st));
     ("className",
      VStr "w-full bg-[var(--background)] border border-[var(--border)] text-[var(--foreground)] text-xs py-2 px-3 rounded focus:border-[var(--primary)] outline-none")]
    (map envOption (Object_keys environments)).

Definition envSelect_onChange (value : string) (st : AppState) : AppState :=
  setCurrentEnv value st.

(** [a < b]; false when either side is [NaN]. *)
Definition num_ltb (a b : number) : bool :=
  match a, b with
  | NaN, _ | _, NaN => false
  | _, NegInf => false
  | NegInf, _ => true
  | PosInf, _ => false
  | Fin _, PosInf => true
  | Fin x, Fin y => negb (Qle_bool y x)
  end.

(** The swatch of a material (lines 382-386 and 516-520):
    [m.metalness > 0.5 ? `linear-gradient(...)` : m.color], with the types
    the catalog entries have: [metalness] a number, [color] a string. *)
Definition swatchBackground (metalness : number) (color : string) : string :=
  if num_ltb (Fin 0.5) metalness then
    "linear-gradient(135deg, " ++ color ++ " 0%, #fff 50%, " ++ color
    ++ " 100%)"
  else color.

(** ** The panel and the canvas (lines 334-336, 483-498) *)

Definition sidebarClass (st : AppState) : string :=
  (if panelOpen st then "w-72" else "w-0")
  ++ " flex-shrink-0 bg-[var(--surface)] border-r border-[var(--border)] overflow-hidden transition-all duration-300".

Definition toggleLeft (st : AppState) : string :=
  if panelOpen st then "18rem" else "0".

(** [onClick={() => setPanelOpen(!panelOpen)}] *)
Definition toggle_onClick (st : AppState) : AppState :=
  setPanelOpen (negb (panelOpen st)) st.

(** [key={`canvas-${antialias}`}] *)
Definition canvasKey (st : AppState) : string :=
  "canvas-" ++ (if antialias st then "true" else "false").

(** ** The events of the interface

    What the user can do, with the handler each event runs. *)
Inductive event : Type :=
| ClickShape (key : string)
| ClickMaterial (key : string)
| ChangeEnv (value : string)
| ChangeBlur (parsed : number)
| ChangeAntialias (checked : bool)
| ChangeEffects (checked : bool)
| ClickToggle.

Definition handle (e : event) (st : AppState) : AppState :=
  match e with
  | ClickShape key => shapeButton_onClick key st
  | ClickMaterial key => setCurrentMaterial key st
  | ChangeEnv value => envSelect_onChange value st
  | ChangeBlur parsed => blurSlider_onChange parsed st
  | ChangeAntialias checked => setAntialias checked st
  | ChangeEffects checked => setShowEffects checked st
  | ClickToggle => toggle_onClick st
  end.

(** The events the interface offers: a button exists for each key of
    [Object.keys(shapes)] and of [Object.keys(materials)], an option for
    each key of [Object.keys(environments)], and the slider, whose [min] is
    0 and [max] is 1, delivers a value in that range. *)
Definition offered (e : event) : bool :=
  match e with
  | ClickShape key => mem key (Object_keys shapes)
  | ClickMaterial key => mem key (Object_keys materials)
  | ChangeEnv value => mem value (Object_keys environments)
  | ChangeBlur parsed => in_unit_interval parsed
  | ChangeAntialias _ | ChangeEffects _ | ClickToggle => true
  end.

Inductive reachable : AppState -> Prop :=
| reachable_init : reachable initialState
| reachable_step (e : event) (st : AppState) :
    reachable st -> offered e = true -> reachable (handle e st).

(** The state variable an event writes. *)
Inductive field : Type :=
| FMaterial | FShape | FEnv | FBlur | FEffects | FAntialias | FPanel.

Definition writes (e : event) : field :=
  match e with
  | ClickShape _ => FShape
  | ClickMaterial _ => FMaterial
  | ChangeEnv _ => FEnv
  | ChangeBlur _ => FBlur
  | ChangeAntialias _ => FAntialias
  | ChangeEffects _ => FEffects
  | ClickToggle => FPanel
  end.

Definition field_eqb (a b : field) : bool :=
  match a, b with
  | FMaterial, FMaterial | FShape, FShape | FEnv, FEnv | FBlur, FBlur
  | FEffects, FEffects | FAntialias, FAntialias | FPanel, FPanel => true
  | _, _ => false
  end.

(** The state has its three keys in the catalogs and its blur in [0, 1]. *)
Definition valid_state (st : AppState) : bool :=
  mem (currentShape st) (Object_keys shapes)
  && mem (currentMaterial st) (Object_keys materials)
  && mem (currentEnv st) (Object_keys environments)
  && in_unit_interval (envBlur st).

(** The [<Shape .../>] elements of a tree. *)
Definition is_ShapeEl (n : node) : bool :=
  match n with
  | ShapeEl _ _ => true
  | _ => false
  end.

Definition shape_elements (n : node) : list node :=
  filter is_ShapeEl (descendants n).

Definition className_of (n : node) : string :=
  match prop "className" n with
  | VStr s => s
  | _ => ""
  end.

(** Two more definitions that are not in the catalog: a transmission of 0
    beside a thickness, and a negative transmission. *)
Definition zeroTransmission : obj :=
  [("name", VStr "Clear Off"); ("category", VStr "special");
   ("color", VStr "#ffffff"); ("metalness", num 0);
   ("roughness", num 0); ("transmission", num 0);
   ("thickness", num 0.5); ("envMapIntensity", num 1)].

Definition negativeTransmission : obj :=
  [("name", VStr "Negative"); ("category", VStr "special");
   ("color", VStr "#ffffff"); ("metalness", num 0);
   ("roughness", num 0); ("transmission", num (-0.5));
   ("envMapIntensity", num 1)].

(** A shape button that carries the active class. *)
Definition shapeButton_active (b : node) : bool :=
  className_of b =? shapeButtonBase ++ shapeButtonActive.

(** The value of [Math.PI]: the double nearest to pi. *)
Definition Math_PI_double : Q := 884279719003555 # 281474976710656.

(** ** [Shape] with the objects it creates

    [new THREE.Color(emissive)] makes a new object at every call.  Here the
    colour objects live in a heap, an attribute is a plain value or the
    address of a colour object, and [Shape_h] is [Shape] run on a heap.
    Elements are kept as values. *)

(** The colour objects created so far, each by the argument of its
    constructor; the address of an object is its position. *)
Definition heap : Type := list jsval.

Inductive attr : Type :=
| Plain (v : jsval)
| ColorRef (addr : nat).

Inductive hnode : Type :=
| HElem (tag : string) (key : option jsval) (props : dict attr)
    (children : list hnode).

Definition hel (tag : string) (props : dict attr) (children : list hnode)
  : hnode :=
  HElem tag None props children.

(** [new THREE.Color(c)] *)
Definition new_Color (c : jsval) (h : heap) : nat * heap :=
  (List.length h, (h ++ [c])%list).

Definition plain (o : obj) : dict attr :=
  map (fun kv => (fst kv, Plain (snd kv))) o.

Definition material_h (materialProps : obj) (h : heap) : hnode * heap :=
  let transmission := get "transmission" materialProps in
  let thickness := get "thickness" materialProps in
  let emissive := get "emissive" materialProps in
  let emissiveIntensity := get "emissiveIntensity" materialProps in
  let iridescence := get "iridescence" materialProps in
  let iridescenceIOR := get "iridescenceIOR" materialProps in
  if truthy (isPhysical materialProps) then
    (hel "meshPhysicalMaterial"
       (set "iridescenceIOR" (Plain iridescenceIOR)
         (set "iridescence" (Plain iridescence)
           (set "thickness" (Plain thickness)
             (set "transmission" (Plain transmission)
               (plain (baseProps materialProps))))))
       [],
     h)
  else
    let (emissiveAttr, h') :=
      if truthy emissive then
        let (addr, h') := new_Color emissive h in (ColorRef addr, h')
      else (Plain VUndef, h) in
    (hel "meshStandardMaterial"
       (set "emissiveIntensity" (Plain (js_or emissiveIntensity (num 0)))
         (set "emissive" emissiveAttr (plain (baseProps materialProps))))
       [],
     h').

Definition only_args (l : list jsval) : dict attr :=
  [("args", Plain (VArr l))].

Definition geometry_h (shape : string) (material : hnode) : hnode :=
  if shape =? "sphere" then
    hel "Sphere" (only_args [num 1; num 64; num 64]) [material]
  else if shape =? "cube" then
    hel "Box" (only_args [num 1.6; num 1.6; num 1.6]) [material]
  else if shape =? "roundedBox" then
    hel "RoundedBox"
      [("args", Plain (VArr [num 1.5; num 1.5; num 1.5]));
       ("radius", Plain (num 0.15)); ("smoothness", Plain (num 4))]
      [material]
  else if shape =? "torus" then
    hel "Torus" (only_args [num 0.8; num 0.35; num 32; num 64]) [material]
  else if shape =? "torusKnot" then
    hel "TorusKnot" (only_args [num 0.7; num 0.25; num 128; num 32]) [material]
  else if shape =? "icosahedron" then
    hel "Icosahedron" (only_args [num 1; num 0]) [material]
  else if shape =? "octahedron" then
    hel "Octahedron" (only_args [num 1.2; num 0]) [material]
  else if shape =? "dodecahedron" then
    hel "Dodecahedron" (only_args [num 1; num 0]) [material]
  else
    hel "Sphere" (only_args [num 1; num 64; num 64]) [material].

Definition Shape_h (shape : string) (materialProps : option obj) (h : heap)
  : result (hnode * heap) :=
  match materialProps with
  | None => Throw TypeError
  | Some mp =>
      let (m, h') := material_h mp h in Ok (geometry_h shape m, h')
  end.

(** What an attribute holds, read in a heap. *)
Definition read (h : heap) (a : attr) : jsval :=
  match a with
  | Plain v => v
  | ColorRef addr =>
      match nth_error h addr with
      | Some c => VColor c
      | None => VUndef
      end
  end.

(** The structure of an element: every address replaced by the object it
    points to.  Two elements are structurally identical when they have the
    same structure. *)
Fixpoint structure (h : heap) (n : hnode) : node :=
  match n with
  | HElem tag key props children =>
      Elem tag key (map (fun kv => (fst kv, read h (snd kv))) props)
        (map (structure h) children)
  end.

(** ** The names React keeps for itself *)

Definition reservedProps : list string := ["key"; "ref"].

(** The definition has no property named [key] or [ref]. *)
Definition no_reserved (m : obj) : bool :=
  negb (has_key "key" m) && negb (has_key "ref" m).

(** * Theorems *)

(** ** Objects *)

Section DictFacts.

Context {A : Type}.
Implicit Types (o : dict A) (k : string) (ks : list string).

Lemma lookup_set k k' (v : A) o :
  lookup k (set k' v o) = if k =? k' then Some v else lookup k o.
Proof.
  induction o as [|[k0 v0] rest IH]; simpl.
  - reflexivity.
  - destruct (k' =? k0) eqn:E'; simpl.
    + apply String.eqb_eq in E'; subst k0.
      destruct (k =? k'); reflexivity.
    + destruct (k =? k0) eqn:E0.
      * apply String.eqb_eq in E0; subst k0.
        rewrite String.eqb_sym, E'. reflexivity.
      * exact IH.
Qed.

Lemma lookup_omit k ks o :
  lookup k (omit ks o) = if mem k ks then None else lookup k o.
Proof.
  induction o as [|[k0 v0] rest IH]; simpl.
  - destruct (mem k ks); reflexivity.
  - destruct (mem k0 ks) eqn:M0; simpl.
    + rewrite IH. destruct (k =? k0) eqn:E0.
      * apply String.eqb_eq in E0; subst k0. rewrite M0. reflexivity.
      * reflexivity.
    + destruct (k =? k0) eqn:E0.
      * apply String.eqb_eq in E0; subst k0. rewrite M0. reflexivity.
      * exact IH.
Qed.

Lemma lookup_of_key k o :
  In k (Object_keys o) -> exists v, lookup k o = Some v.
Proof.
  induction o as [|[k0 v0] rest IH]; simpl.
  - intros [].
  - intros [<-|Hin].
    + rewrite String.eqb_refl. eauto.
    + destruct (k =? k0); eauto.
Qed.

Lemma lookup_not_key k o :
  ~ In k (Object_keys o) -> lookup k o = None.
Proof.
  induction o as [|[k0 v0] rest IH]; simpl.
  - reflexivity.
  - intros Hn. destruct (k =? k0) eqn:E.
    + apply String.eqb_eq in E. subst. tauto.
    + apply IH. tauto.
Qed.

End DictFacts.

Lemma get_set k k' v (o : obj) :
  get k (set k' v o) = if k =? k' then v else get k o.
Proof. unfold get. rewrite lookup_set. destruct (k =? k'); reflexivity. Qed.

Lemma has_key_set {A : Type} k k' (v : A) (o : dict A) :
  has_key k (set k' v o) = (k =? k') || has_key k o.
Proof. unfold has_key. rewrite lookup_set. destruct (k =? k'); reflexivity. Qed.

Lemma has_key_baseProps k (m : obj) :
  has_key k (baseProps m) = negb (mem k featureProps) && has_key k m.
Proof.
  unfold has_key, baseProps. rewrite lookup_omit.
  destruct (mem k featureProps); reflexivity.
Qed.

Lemma get_baseProps k (m : obj) :
  get k (baseProps m) = if mem k featureProps then VUndef else get k m.
Proof.
  unfold get, baseProps. rewrite lookup_omit.
  destruct (mem k featureProps); reflexivity.
Qed.

(** ** Truthiness *)

Lemma truthy_js_or a b : truthy (js_or a b) = truthy a || truthy b.
Proof. unfold js_or. destruct (truthy a) eqn:E; simpl; auto. Qed.

Lemma truthy_isPhysical m :
  truthy (isPhysical m)
  = truthy (get "transmission" m) || truthy (get "iridescence" m).
Proof. apply truthy_js_or. Qed.

(** A positive number is truthy. *)
Lemma gt0_truthy v : gt0 v = true -> truthy v = true.
Proof.
  destruct v as [| |b|[| | |q]|s|l|c]; simpl; try discriminate; auto.
  intros H. apply negb_true_iff in H. apply negb_true_iff.
  destruct (Qeq_bool q 0) eqn:E; [|reflexivity].
  apply Qeq_bool_iff in E.
  assert (Hle : Qle_bool q 0 = true) by (apply Qle_bool_iff; rewrite E; apply Qle_refl).
  congruence.
Qed.

(** On a feature field in the range of the data model, "truthy" and
    "greater than 0" are the same test. *)
Lemma truthy_in_range v : feature_in_range v = true -> truthy v = gt0 v.
Proof.
  destruct v as [| |b|[| | |q]|s|l|c]; simpl; try discriminate; auto.
  intros H. apply Qle_bool_iff in H. f_equal.
  destruct (Qeq_bool q 0) eqn:E, (Qle_bool q 0) eqn:L; try reflexivity.
  - apply Qeq_bool_iff in E.
    assert (Qle_bool q 0 = true) by (apply Qle_bool_iff; rewrite E; apply Qle_refl).
    congruence.
  - apply Qle_bool_iff in L.
    assert (Qeq_bool q 0 = true) by (apply Qeq_bool_iff, Qle_antisym; assumption).
    congruence.
Qed.

(** ** The material chosen by [Shape] *)

Lemma material_tag m :
  tag_of (material m)
  = Some (if truthy (isPhysical m) then physicalTag else standardTag).
Proof. unfold material. destruct (truthy (isPhysical m)); reflexivity. Qed.

Lemma material_physical_props m :
  truthy (isPhysical m) = true ->
  props_of (material m)
  = set "iridescenceIOR" (get "iridescenceIOR" m)
      (set "iridescence" (get "iridescence" m)
        (set "thickness" (get "thickness" m)
          (set "transmission" (get "transmission" m) (baseProps m)))).
Proof. intros H. unfold material. rewrite H. reflexivity. Qed.

Lemma material_standard_props m :
  truthy (isPhysical m) = false ->
  props_of (material m)
  = set "emissiveIntensity" (js_or (get "emissiveIntensity" m) (num 0))
      (set "emissive"
        (if truthy (get "emissive" m) then VColor (get "emissive" m)
         else VUndef)
        (baseProps m)).
Proof. intros H. unfold material. rewrite H. reflexivity. Qed.

(** Every definition of the catalog has its two switching fields in that
    range, so the selection law below covers the whole catalog. *)
Lemma catalog_features_in_range :
  Forall (fun entry =>
            feature_in_range (get "transmission" (snd entry)) = true
            /\ feature_in_range (get "iridescence" (snd entry)) = true)
         materials.
Proof. unfold materials. repeat constructor. Qed.

(** The models the catalog's definitions are resolved to. *)
Lemma catalog_shading_models :
  map (fun entry => (fst entry, tag_of (material (snd entry))))
      (filter (fun entry => truthy (isPhysical (snd entry))) materials)
  = [("glass", Some physicalTag); ("holographic", Some physicalTag)]
  /\ map fst (filter (fun entry => negb (truthy (isPhysical (snd entry))))
                     materials)
     = ["chrome"; "gold"; "copper"; "brushedSteel"; "blackMetal";
        "glossyPlastic"; "mattePlastic"; "satin"; "porcelain"; "ceramic";
        "rubber"; "velvet"; "emission"].
Proof. split; reflexivity. Qed.

(** C1.  Shading-model selection: for a material definition whose
    [transmission] and [iridescence] are absent or non-negative numbers (the
    range the data model gives them), [Shape] selects the physical material
    exactly when [transmission > 0] or [iridescence > 0], and the standard
    material in every other case. *)
Theorem shading_model_selection (m : obj) :
  feature_in_range (get "transmission" m) = true ->
  feature_in_range (get "iridescence" m) = true ->
  (tag_of (material m) = Some physicalTag
   <-> gt0 (get "transmission" m) = true \/ gt0 (get "iridescence" m) = true)
  /\ (tag_of (material m) = Some standardTag
      <-> ~ (gt0 (get "transmission" m) = true
             \/ gt0 (get "iridescence" m) = true))
  /\ (tag_of (material m) = Some physicalTag
      \/ tag_of (material m) = Some standardTag).
Proof.
  intros Ht Hi.
  rewrite material_tag, truthy_isPhysical.
  rewrite (truthy_in_range _ Ht), (truthy_in_range _ Hi).
  unfold physicalTag, standardTag.
  destruct (gt0 (get "transmission" m)), (gt0 (get "iridescence" m));
    simpl; intuition (auto; discriminate).
Qed.

Lemma shading_model_selection_witness :
  lookup "glass" materials = Some glass
  /\ feature_in_range (get "transmission" glass) = true
  /\ feature_in_range (get "iridescence" glass) = true
  /\ (tag_of (material glass) = Some physicalTag
      <-> gt0 (get "transmission" glass) = true
          \/ gt0 (get "iridescence" glass) = true).
Proof.
  split; [reflexivity|]. split; [reflexivity|]. split; [reflexivity|].
  exact (proj1 (shading_model_selection glass eq_refl eq_refl)).
Defined.

(** C3.  A definition that sets a transmission or iridescence feature
    (greater than 0) is resolved to the physical material whatever emissive
    fields it has, and the resolved attributes have no [emissive] and no
    [emissiveIntensity]: they are dropped and nothing is thrown. *)
Theorem physical_path_drops_emissive (shape : string) (m : obj) :
  gt0 (get "transmission" m) = true \/ gt0 (get "iridescence" m) = true ->
  tag_of (material m) = Some physicalTag
  /\ has_key "emissive" (props_of (material m)) = false
  /\ has_key "emissiveIntensity" (props_of (material m)) = false
  /\ Shape shape (Some m) = Ok (geometry shape (material m)).
Proof.
  intros H.
  assert (P : truthy (isPhysical m) = true).
  { rewrite truthy_isPhysical. apply orb_true_iff.
    destruct H as [H|H]; [left|right]; apply gt0_truthy; exact H. }
  rewrite material_tag, (material_physical_props _ P), P.
  repeat split.
  - rewrite !has_key_set, has_key_baseProps. reflexivity.
  - rewrite !has_key_set, has_key_baseProps. reflexivity.
Qed.

Lemma physical_path_drops_emissive_witness :
  get "transmission" glowingGlass = num 0.5
  /\ get "emissive" glowingGlass = VStr "#ff0000"
  /\ get "emissiveIntensity" glowingGlass = num 2
  /\ tag_of (material glowingGlass) = Some physicalTag
  /\ has_key "emissive" (props_of (material glowingGlass)) = false
  /\ has_key "emissiveIntensity" (props_of (material glowingGlass)) = false
  /\ Shape "sphere" (Some glowingGlass)
     = Ok (geometry "sphere" (material glowingGlass)).
Proof.
  split; [reflexivity|]. split; [reflexivity|]. split; [reflexivity|].
  exact (physical_path_drops_emissive "sphere" glowingGlass
           (or_introl eq_refl)).
Defined.

(** What the standard material receives as emissive attributes, for any
    definition on the standard path. *)
Lemma standard_emissive_props m :
  truthy (isPhysical m) = false ->
  prop "emissive" (material m)
  = (if truthy (get "emissive" m) then VColor (get "emissive" m) else VUndef)
  /\ prop "emissiveIntensity" (material m)
     = (if truthy (get "emissiveIntensity" m) then get "emissiveIntensity" m
        else num 0).
Proof.
  intros H. unfold prop. rewrite (material_standard_props _ H).
  rewrite !get_set. simpl. split; reflexivity.
Qed.

(** C8, as stated, fails: [intensityOnly] has no emissive colour and is
    resolved to the standard material, yet its resolved [emissiveIntensity]
    is 2, because the default [|| 0] looks at [emissiveIntensity] itself and
    not at the colour. *)
Lemma emissive_default_counterexample :
  has_key "emissive" intensityOnly = false
  /\ tag_of (material intensityOnly) = Some standardTag
  /\ prop "emissiveIntensity" (material intensityOnly) = num 2
  /\ prop "emissiveIntensity" (material intensityOnly) <> num 0.
Proof.
  split; [reflexivity|]. split; [reflexivity|]. split; [reflexivity|].
  intros H. vm_compute in H. discriminate H.
Qed.

(** C8, amended.  On the standard path the resolved [emissiveIntensity] is
    the definition's own [emissiveIntensity] when that is set (truthy) and 0
    otherwise, whether or not an emissive colour is set; the resolved
    [emissive] is [new THREE.Color(emissive)] when the definition sets an
    emissive colour and [undefined] otherwise.  So a definition with neither
    field gets [emissive = undefined] and [emissiveIntensity = 0]. *)
Theorem standard_path_emissive (m : obj) :
  tag_of (material m) = Some standardTag ->
  prop "emissive" (material m)
  = (if truthy (get "emissive" m) then VColor (get "emissive" m) else VUndef)
  /\ prop "emissiveIntensity" (material m)
     = (if truthy (get "emissiveIntensity" m) then get "emissiveIntensity" m
        else num 0)
  /\ (has_key "emissiveIntensity" m = false ->
      prop "emissiveIntensity" (material m) = num 0)
  /\ (has_key "emissive" m = false ->
      prop "emissive" (material m) = VUndef).
Proof.
  intros Htag. rewrite material_tag in Htag.
  destruct (truthy (isPhysical m)) eqn:P; [discriminate Htag|].
  destruct (standard_emissive_props _ P) as [He Hi].
  split; [exact He|]. split; [exact Hi|]. split.
  - intros Hk. rewrite Hi. unfold has_key in Hk. unfold get.
    destruct (lookup "emissiveIntensity" m); [discriminate Hk|reflexivity].
  - intros Hk. rewrite He. unfold has_key in Hk. unfold get.
    destruct (lookup "emissive" m); [discriminate Hk|reflexivity].
Qed.

Lemma standard_path_emissive_witness :
  lookup "emission" materials = Some emission
  /\ tag_of (material emission) = Some standardTag
  /\ prop "emissive" (material emission) = VColor (VStr "#02d7f2")
  /\ prop "emissiveIntensity" (material emission) = num 2.
Proof.
  split; [reflexivity|]. split; [reflexivity|].
  pose proof (standard_path_emissive emission eq_refl) as [He [Hi _]].
  split; [exact He | exact Hi].
Defined.

(** ** Totality and repeatability *)

Ltac split_switch :=
  repeat match goal with
         | |- context [if ?s =? ?k then _ else _] => destruct (s =? k)
         end.

(** [Shape] returns for every shape and every object. *)
Lemma Shape_returns shape (m : obj) :
  Shape shape (Some m) = Ok (geometry shape (material m)).
Proof. reflexivity. Qed.

Lemma read_set h k (a : attr) (o : dict attr) :
  map (fun kv => (fst kv, read h (snd kv))) (set k a o)
  = set k (read h a) (map (fun kv => (fst kv, read h (snd kv))) o).
Proof.
  induction o as [|[k0 a0] rest IH]; simpl; [reflexivity|].
  destruct (k =? k0); simpl; [reflexivity|]. rewrite IH. reflexivity.
Qed.

Lemma read_plain h (o : obj) :
  map (fun kv => (fst kv, read h (snd kv))) (plain o) = o.
Proof.
  unfold plain. induction o as [|[k0 v0] rest IH]; simpl; [reflexivity|].
  rewrite IH. reflexivity.
Qed.

(** A colour object is read back at its address, whatever is created after
    it. *)
Lemma read_new_Color (h later : heap) (c : jsval) :
  read ((h ++ [c]) ++ later)%list (ColorRef (List.length h)) = VColor c.
Proof.
  simpl. rewrite <- app_assoc, nth_error_app2 by apply le_n.
  rewrite PeanoNat.Nat.sub_diag. reflexivity.
Qed.

(** [material_h] only adds to the heap, and the element it returns has the
    structure of [material], in the heap it leaves and in every later
    one. *)
Lemma material_h_structure (m : obj) (h : heap) :
  exists n created,
    material_h m h = (n, (h ++ created)%list)
    /\ forall later,
         structure ((h ++ created) ++ later)%list n = material m.
Proof.
  unfold material_h, material.
  destruct (truthy (isPhysical m)).
  - eexists. exists []. rewrite app_nil_r. split; [reflexivity|].
    intros later. unfold hel, el. simpl. rewrite !read_set, read_plain.
    reflexivity.
  - destruct (truthy (get "emissive" m)).
    + eexists. exists [get "emissive" m]. split; [reflexivity|].
      intros later. unfold hel, el. cbn [structure map].
      rewrite !read_set, read_plain, read_new_Color. reflexivity.
    + eexists. exists []. rewrite app_nil_r. split; [reflexivity|].
      intros later. unfold hel, el. simpl. rewrite !read_set, read_plain.
      reflexivity.
Qed.

Lemma geometry_h_structure (h : heap) (shape : string) (n : hnode) :
  structure h (geometry_h shape n) = geometry shape (structure h n).
Proof. unfold geometry_h, geometry. split_switch; reflexivity. Qed.

(** What one call of [Shape_h] does, for any definition. *)
Lemma Shape_h_structure (shape : string) (m : obj) (h : heap) :
  exists n created,
    Shape_h shape (Some m) h = Ok (n, (h ++ created)%list)
    /\ forall later,
         structure ((h ++ created) ++ later)%list n
         = geometry shape (material m).
Proof.
  destruct (material_h_structure m h) as (n & created & Hm & Hs).
  exists (geometry_h shape n), created. split.
  - unfold Shape_h. rewrite Hm. reflexivity.
  - intros later. rewrite geometry_h_structure, Hs. reflexivity.
Qed.

(** C4.  For every key of the material catalog, every shape and every heap,
    [Shape] on the catalog's definition returns an element and does not
    throw; a second call, run in the heap the first one left, returns again,
    and the two elements are structurally identical, although each call
    makes its own colour object; the first element is not changed by the
    second call; and the structure is the one [Shape] computes from the
    definition. *)
Theorem resolver_total_deterministic (k shape : string) (h0 : heap) :
  In k (Object_keys materials) ->
  exists (m : obj) (n1 : hnode) (h1 : heap) (n2 : hnode) (h2 : heap),
    lookup k materials = Some m
    /\ Shape_h shape (lookup k materials) h0 = Ok (n1, h1)
    /\ Shape_h shape (lookup k materials) h1 = Ok (n2, h2)
    /\ structure h1 n1 = structure h2 n2
    /\ structure h2 n1 = structure h1 n1
    /\ Shape shape (lookup k materials) = Ok (structure h1 n1)
    /\ structure h1 n1 = geometry shape (material m).
Proof.
  intros Hk. destruct (lookup_of_key _ _ Hk) as [m Hm]. rewrite Hm.
  destruct (Shape_h_structure shape m h0) as (n1 & c1 & R1 & S1).
  destruct (Shape_h_structure shape m (h0 ++ c1)%list) as (n2 & c2 & R2 & S2).
  exists m, n1, (h0 ++ c1)%list, n2, ((h0 ++ c1) ++ c2)%list.
  pose proof (S1 []) as S10. rewrite app_nil_r in S10.
  pose proof (S2 []) as S20. rewrite app_nil_r in S20.
  repeat split; try assumption.
  - rewrite S10, S20. reflexivity.
  - rewrite S10. apply S1.
  - rewrite S10. reflexivity.
Qed.

Lemma resolver_total_deterministic_witness :
  In "emission" (Object_keys materials)
  /\ exists (m : obj) (n1 : hnode) (h1 : heap) (n2 : hnode) (h2 : heap),
       lookup "emission" materials = Some m
       /\ Shape_h "torus" (lookup "emission" materials) [] = Ok (n1, h1)
       /\ Shape_h "torus" (lookup "emission" materials) h1 = Ok (n2, h2)
       /\ structure h1 n1 = structure h2 n2
       /\ structure h2 n1 = structure h1 n1
       /\ Shape "torus" (lookup "emission" materials)
          = Ok (structure h1 n1)
       /\ structure h1 n1 = geometry "torus" (material m).
Proof.
  assert (Hin : In "emission" (Object_keys materials))
    by (simpl; tauto).
  split; [exact Hin|].
  exact (resolver_total_deterministic "emission" "torus" [] Hin).
Defined.

(** The two calls of the witness above return different elements: the
    second holds the address of a second colour object.  Only their
    structure is the same. *)
Lemma emission_calls_make_two_colors :
  exists n1 h1 n2 h2,
    Shape_h "torus" (lookup "emission" materials) [] = Ok (n1, h1)
    /\ Shape_h "torus" (lookup "emission" materials) h1 = Ok (n2, h2)
    /\ n1 <> n2
    /\ h1 = [VStr "#02d7f2"]
    /\ h2 = [VStr "#02d7f2"; VStr "#02d7f2"].
Proof.
  do 4 eexists. split; [reflexivity|]. split; [reflexivity|].
  split; [discriminate|]. split; reflexivity.
Qed.

(** C10.  A shape that is none of the eight keys of [shapes] reaches the
    [default] branch: [Shape] returns the sphere with [args = [1, 64, 64]]
    around the resolved material. *)
Theorem Shape_default_branch (shape : string) (m : obj) :
  ~ In shape (Object_keys shapes) ->
  Shape shape (Some m)
  = Ok (el "Sphere" [("args", VArr [num 1; num 64; num 64])] [material m]).
Proof.
  intros Hn. unfold Shape, geometry.
  assert (F : forall k, In k (Object_keys shapes) -> (shape =? k) = false).
  { intros k Hk. apply String.eqb_neq. intros ->. exact (Hn Hk). }
  rewrite !F by (simpl; tauto).
  reflexivity.
Qed.

Lemma Shape_default_branch_witness :
  ~ In "pyramid" (Object_keys shapes)
  /\ Shape "pyramid" (Some glass)
     = Ok (el "Sphere" [("args", VArr [num 1; num 64; num 64])]
             [material glass]).
Proof.
  assert (Hn : ~ In "pyramid" (Object_keys shapes)).
  { simpl. intros H.
    repeat (destruct H as [H|H]; [discriminate H|]). exact H. }
  split; [exact Hn|].
  exact (Shape_default_branch "pyramid" glass Hn).
Defined.

(** ** The catalogs *)

(** C7.  In each of the three catalogs every key that [Object.keys] lists
    has an entry, and [Object.keys] lists the keys in the order of the
    declaration. *)
Theorem catalog_closure :
  (forall k, In k (Object_keys materials) ->
     exists d, lookup k materials = Some d)
  /\ (forall k, In k (Object_keys shapes) ->
       exists d, lookup k shapes = Some d)
  /\ (forall k, In k (Object_keys environments) ->
       exists d, lookup k environments = Some d)
  /\ Object_keys materials
     = ["chrome"; "gold"; "copper"; "brushedSteel"; "blackMetal";
        "glossyPlastic"; "mattePlastic"; "satin"; "porcelain"; "ceramic";
        "rubber"; "velvet"; "glass"; "emission"; "holographic"]
  /\ Object_keys shapes
     = ["sphere"; "cube"; "roundedBox"; "torus"; "torusKnot"; "icosahedron";
        "octahedron"; "dodecahedron"]
  /\ Object_keys environments
     = ["studio"; "city"; "sunset"; "dawn"; "night"; "forest"; "apartment";
        "warehouse"; "park"; "lobby"].
Proof.
  repeat split; intros; apply lookup_of_key; assumption.
Qed.

(** C9.  Every entry of the material catalog populates at most one feature
    group: [glass] has [transmission] and [thickness] only, [emission] has
    [emissive] and [emissiveIntensity] only, [holographic] has [iridescence]
    and [iridescenceIOR] only, and the twelve other entries have no feature
    field. *)
Theorem catalog_one_feature_group :
  Forall (fun entry => (groups_populated (snd entry) <= 1)%nat) materials
  /\ map (fun entry => (fst entry, features (snd entry))) materials
     = [("chrome", []); ("gold", []); ("copper", []); ("brushedSteel", []);
        ("blackMetal", []); ("glossyPlastic", []); ("mattePlastic", []);
        ("satin", []); ("porcelain", []); ("ceramic", []); ("rubber", []);
        ("velvet", []);
        ("glass", ["transmission"; "thickness"]);
        ("emission", ["emissive"; "emissiveIntensity"]);
        ("holographic", ["iridescence"; "iridescenceIOR"])].
Proof.
  split.
  - unfold materials. repeat constructor.
  - reflexivity.
Qed.

(** ** The state of [App] *)

(** C2, as stated, fails: the setter stores what it is given.  After
    [setEnvBlur(-0.5)] the stored blur is -0.5 and not 0, after
    [setEnvBlur(1.7)] it is 1.7 and not 1. *)
Lemma blur_clamp_counterexample :
  envBlur (setEnvBlur (Fin (-0.5)) initialState) = Fin (-0.5)
  /\ clamp01 (Fin (-0.5)) = Fin 0
  /\ ~ num_eq (envBlur (setEnvBlur (Fin (-0.5)) initialState))
              (clamp01 (Fin (-0.5)))
  /\ envBlur (setEnvBlur (Fin 1.7) initialState) = Fin 1.7
  /\ clamp01 (Fin 1.7) = Fin 1
  /\ ~ num_eq (envBlur (setEnvBlur (Fin 1.7) initialState))
              (clamp01 (Fin 1.7)).
Proof.
  repeat split; intros H; vm_compute in H; discriminate H.
Qed.

Lemma clamp01_in_range v : in_unit_interval v = true -> clamp01 v = v.
Proof.
  unfold in_unit_interval, clamp01. intros H.
  apply andb_true_iff in H as [H0 H1].
  destruct v as [| | |q]; simpl in *; try discriminate.
  rewrite H0. simpl. rewrite H1. reflexivity.
Qed.

(** C2, amended.  [setEnvBlur] replaces the stored blur by its argument,
    unchanged, and leaves the other fields as they were; the slider's
    handler does nothing else.  The result is the clamped value
    [min(1, max(0, v))] for the arguments that already lie in [0, 1], which
    are the ones the slider ([min="0"], [max="1"]) offers. *)
Theorem setEnvBlur_stores_argument (v : number) (st : AppState) :
  envBlur (setEnvBlur v st) = v
  /\ blurSlider_onChange v st = setEnvBlur v st
  /\ setEnvBlur v st
     = mkAppState (currentMaterial st) (currentShape st) (currentEnv st) v
         (showEffects st) (antialias st) (panelOpen st)
  /\ spec_setBackgroundBlur v st = setEnvBlur (clamp01 v) st
  /\ prop "min" (blurSlider st) = VStr "0"
  /\ prop "max" (blurSlider st) = VStr "1"
  /\ (in_unit_interval v = true ->
      setEnvBlur v st = spec_setBackgroundBlur v st).
Proof.
  repeat split.
  intros H. unfold spec_setBackgroundBlur.
  rewrite (clamp01_in_range _ H). reflexivity.
Qed.

Lemma setEnvBlur_stores_argument_witness :
  in_unit_interval (Fin 0.25) = true
  /\ envBlur (setEnvBlur (Fin 0.25) initialState) = Fin 0.25
  /\ setEnvBlur (Fin 0.25) initialState
     = spec_setBackgroundBlur (Fin 0.25) initialState.
Proof.
  split; [reflexivity|].
  pose proof (setEnvBlur_stores_argument (Fin 0.25) initialState)
    as [Hs [_ [_ [_ [_ [_ Hc]]]]]].
  split; [exact Hs | exact (Hc eq_refl)].
Defined.

(** ** The scene *)

Section SceneFacts.

Variable Math_PI : Q.

Lemma degrees_30 : num_eq (Fin (Math_PI / 6)) (degrees Math_PI 30).
Proof. unfold degrees, num_eq. field. Qed.

Lemma degrees_90 : num_eq (Fin (Math_PI / 2)) (degrees Math_PI 90).
Proof. unfold degrees, num_eq. field. Qed.

(** C5.  Whatever the selection, the scene has a key directional light of
    intensity 0.5, a fill directional light of intensity 0.3, an ambient
    light of intensity 0.2, orbit controls with distance bounds 2.5 and 8
    and polar-angle bounds [Math.PI / 6] (30 degrees) and [Math.PI / 2]
    (90 degrees); and it has the post-processing stage (bloom with luminance
    threshold 0.8 and intensity 0.4, vignette with darkness 0.5) when
    [showEffects] is true and no such stage when it is false. *)
Theorem scene_constants (shape materialKey environment : string)
    (blur : number) (fx : bool) :
  let s := Scene Math_PI shape materialKey environment blur fx in
  map (prop "intensity") (by_tag "directionalLight" s) = [num 0.5; num 0.3]
  /\ map (prop "color") (by_tag "directionalLight" s)
     = [VUndef; VStr "#ff9966"]
  /\ map (prop "intensity") (by_tag "ambientLight" s) = [num 0.2]
  /\ map (prop "minDistance") (by_tag "OrbitControls" s) = [num 2.5]
  /\ map (prop "maxDistance") (by_tag "OrbitControls" s) = [num 8]
  /\ map (prop "minPolarAngle") (by_tag "OrbitControls" s)
     = [VNum (Fin (Math_PI / 6))]
  /\ map (prop "maxPolarAngle") (by_tag "OrbitControls" s)
     = [VNum (Fin (Math_PI / 2))]
  /\ num_eq (Fin (Math_PI / 6)) (degrees Math_PI 30)
  /\ num_eq (Fin (Math_PI / 2)) (degrees Math_PI 90)
  /\ map tag_of (flat_map children_of (by_tag "EffectComposer" s))
     = (if fx then [Some "Bloom"; Some "Vignette"] else [])
  /\ length (by_tag "EffectComposer" s) = (if fx then 1 else 0)%nat
  /\ map (prop "luminanceThreshold") (by_tag "Bloom" s)
     = (if fx then [num 0.8] else [])
  /\ map (prop "intensity") (by_tag "Bloom" s)
     = (if fx then [num 0.4] else [])
  /\ map (prop "darkness") (by_tag "Vignette" s)
     = (if fx then [num 0.5] else []).
Proof.
  intros s. subst s.
  repeat split; try apply degrees_30; try apply degrees_90;
    destruct fx; reflexivity.
Qed.

(** C6.  [App] starts with shape [sphere], material [chrome], environment
    [studio], blur 0.6, post-processing on, antialias on and the panel open;
    rendering the scene of that state gives one material, the standard one,
    with metalness 1, roughness 0.05 and environment intensity 1.5, and the
    post-processing stage is there. *)
Theorem initial_state_scene :
  currentShape initialState = "sphere"
  /\ currentMaterial initialState = "chrome"
  /\ currentEnv initialState = "studio"
  /\ envBlur initialState = Fin 0.6
  /\ showEffects initialState = true
  /\ antialias initialState = true
  /\ panelOpen initialState = true
  /\ exists tree mat : node,
       render (App_scene Math_PI initialState) = Ok tree
       /\ by_tag standardTag tree = [mat]
       /\ by_tag physicalTag tree = []
       /\ prop "metalness" mat = num 1
       /\ prop "roughness" mat = num 0.05
       /\ prop "envMapIntensity" mat = num 1.5
       /\ map tag_of (flat_map children_of (by_tag "EffectComposer" tree))
          = [Some "Bloom"; Some "Vignette"].
Proof.
  do 7 (split; [reflexivity|]).
  eexists. eexists.
  split; [reflexivity|].
  split; [reflexivity|].
  repeat split.
Qed.

End SceneFacts.

(** * Further properties of the code *)

(** ** More on objects *)

Lemma set_absent {A : Type} k (v : A) (o : dict A) :
  has_key k o = false -> set k v o = (o ++ [(k, v)])%list.
Proof.
  unfold has_key. induction o as [|[k0 v0] rest IH]; simpl.
  - reflexivity.
  - destruct (k =? k0); [discriminate|].
    intros H. rewrite (IH H). reflexivity.
Qed.

Lemma lookup_in_keys {A : Type} k (o : dict A) (v : A) :
  lookup k o = Some v -> In k (Object_keys o).
Proof.
  induction o as [|[k0 v0] rest IH]; simpl; [discriminate|].
  destruct (k =? k0) eqn:E.
  - apply String.eqb_eq in E. auto.
  - auto.
Qed.

Lemma mem_In k ks : mem k ks = true <-> In k ks.
Proof.
  unfold mem. rewrite existsb_exists. split.
  - intros [x [Hin E]]. apply String.eqb_eq in E. subst. exact Hin.
  - intros Hin. exists k. split; [exact Hin|apply String.eqb_refl].
Qed.

Lemma not_feature_neq k :
  mem k featureProps = false ->
  (k =? "transmission") = false /\ (k =? "thickness") = false
  /\ (k =? "emissive") = false /\ (k =? "emissiveIntensity") = false
  /\ (k =? "iridescence") = false /\ (k =? "iridescenceIOR") = false.
Proof.
  unfold mem, featureProps. simpl. intros H.
  repeat (apply orb_false_iff in H as [? H]). tauto.
Qed.

(** ** The attributes of the material *)

(** Every property of the definition other than the six feature fields and
    the two names React reserves reaches the material unchanged, on both
    paths ([name] and [category] included), and the material has such an
    attribute exactly when the definition has the property. *)
Theorem material_passes_base_props (m : obj) (k : string) :
  mem k featureProps = false ->
  mem k reservedProps = false ->
  prop k (material m) = get k m
  /\ has_key k (props_of (material m)) = has_key k m.
Proof.
  intros H _. pose proof (has_key_baseProps k m) as HB.
  pose proof (get_baseProps k m) as GB. rewrite H in HB, GB. simpl in HB.
  destruct (not_feature_neq _ H) as (E1 & E2 & E3 & E4 & E5 & E6).
  unfold prop. destruct (truthy (isPhysical m)) eqn:P.
  - rewrite (material_physical_props _ P), !get_set, !has_key_set.
    rewrite E1, E2, E5, E6. simpl. auto.
  - rewrite (material_standard_props _ P), !get_set, !has_key_set.
    rewrite E3, E4. simpl. auto.
Qed.

Lemma material_passes_base_props_witness :
  mem "roughness" featureProps = false
  /\ mem "roughness" reservedProps = false
  /\ prop "roughness" (material emission) = num 0.5
  /\ has_key "roughness" (props_of (material emission)) = true.
Proof.
  split; [reflexivity|]. split; [reflexivity|].
  exact (material_passes_base_props emission "roughness" eq_refl eq_refl).
Defined.

(** On the physical path, for a definition without a [key] or [ref]
    property, the attributes are the base properties followed by
    [transmission], [thickness], [iridescence] and [iridescenceIOR], in this
    order, each with the value the definition has for it; a field the
    definition lacks is passed as [undefined]. *)
Theorem physical_path_attributes (m : obj) :
  no_reserved m = true ->
  tag_of (material m) = Some physicalTag ->
  props_of (material m)
  = (baseProps m
     ++ [("transmission", get "transmission" m);
         ("thickness", get "thickness" m);
         ("iridescence", get "iridescence" m);
         ("iridescenceIOR", get "iridescenceIOR" m)])%list.
Proof.
  intros _ Htag. rewrite material_tag in Htag.
  destruct (truthy (isPhysical m)) eqn:P; [|discriminate Htag].
  rewrite (material_physical_props _ P).
  repeat (rewrite set_absent
            by (rewrite ?has_key_set, has_key_baseProps; reflexivity)).
  rewrite <- !app_assoc. reflexivity.
Qed.

Lemma physical_path_attributes_witness :
  no_reserved glass = true
  /\ tag_of (material glass) = Some physicalTag
  /\ Object_keys (props_of (material glass))
     = ["name"; "category"; "color"; "metalness"; "roughness";
        "envMapIntensity"; "transmission"; "thickness"; "iridescence";
        "iridescenceIOR"]
  /\ prop "transmission" (material glass) = num 0.95
  /\ prop "iridescence" (material glass) = VUndef.
Proof.
  split; [reflexivity|]. split; [reflexivity|].
  rewrite (physical_path_attributes glass eq_refl eq_refl).
  repeat split.
Defined.

(** On the standard path none of [transmission], [thickness], [iridescence]
    and [iridescenceIOR] reaches the material: a thickness or an iridescence
    IOR set beside a zero (or absent) transmission and iridescence is
    dropped. *)
Theorem standard_path_drops_physical (m : obj) :
  tag_of (material m) = Some standardTag ->
  has_key "transmission" (props_of (material m)) = false
  /\ has_key "thickness" (props_of (material m)) = false
  /\ has_key "iridescence" (props_of (material m)) = false
  /\ has_key "iridescenceIOR" (props_of (material m)) = false.
Proof.
  intros Htag. rewrite material_tag in Htag.
  destruct (truthy (isPhysical m)) eqn:P; [discriminate Htag|].
  rewrite (material_standard_props _ P).
  repeat split; rewrite !has_key_set, has_key_baseProps; reflexivity.
Qed.

Lemma standard_path_drops_physical_witness :
  get "thickness" zeroTransmission = num 0.5
  /\ tag_of (material zeroTransmission) = Some standardTag
  /\ has_key "thickness" (props_of (material zeroTransmission)) = false
  /\ has_key "transmission" (props_of (material zeroTransmission)) = false.
Proof.
  split; [reflexivity|]. split; [reflexivity|].
  pose proof (standard_path_drops_physical zeroTransmission eq_refl)
    as (Ht & Hk & _).
  split; [exact Hk | exact Ht].
Defined.

(** On the standard path, for a definition without a [key] or [ref]
    property, the attributes are the base properties followed by [emissive]
    and [emissiveIntensity], in this order. *)
Theorem standard_path_attributes (m : obj) :
  no_reserved m = true ->
  tag_of (material m) = Some standardTag ->
  props_of (material m)
  = (baseProps m
     ++ [("emissive",
          if truthy (get "emissive" m) then VColor (get "emissive" m)
          else VUndef);
         ("emissiveIntensity", js_or (get "emissiveIntensity" m) (num 0))])%list.
Proof.
  intros _ Htag. rewrite material_tag in Htag.
  destruct (truthy (isPhysical m)) eqn:P; [discriminate Htag|].
  rewrite (material_standard_props _ P).
  repeat (rewrite set_absent
            by (rewrite ?has_key_set, has_key_baseProps; reflexivity)).
  rewrite <- !app_assoc. reflexivity.
Qed.

Lemma standard_path_attributes_witness :
  no_reserved zeroTransmission = true
  /\ tag_of (material zeroTransmission) = Some standardTag
  /\ Object_keys (props_of (material zeroTransmission))
     = ["name"; "category"; "color"; "metalness"; "roughness";
        "envMapIntensity"; "emissive"; "emissiveIntensity"]
  /\ prop "emissiveIntensity" (material zeroTransmission) = num 0.
Proof.
  split; [reflexivity|]. split; [reflexivity|].
  rewrite (standard_path_attributes zeroTransmission eq_refl eq_refl).
  repeat split.
Defined.

(** The switch between the two materials is a truthiness test: the physical
    material is chosen exactly when [transmission] or [iridescence] is
    truthy, the standard one exactly when both are falsy. *)
Theorem shading_model_by_truthiness (m : obj) :
  (tag_of (material m) = Some physicalTag
   <-> truthy (get "transmission" m) = true
       \/ truthy (get "iridescence" m) = true)
  /\ (tag_of (material m) = Some standardTag
      <-> truthy (get "transmission" m) = false
          /\ truthy (get "iridescence" m) = false).
Proof.
  rewrite material_tag, truthy_isPhysical. unfold physicalTag, standardTag.
  destruct (truthy (get "transmission" m)), (truthy (get "iridescence" m));
    simpl; intuition (auto; discriminate).
Qed.

(** A negative [transmission] or [iridescence] is not greater than 0 and
    still selects the physical material, because it is truthy. *)
Theorem negative_feature_selects_physical (m : obj) (q : Q) :
  q < 0 ->
  get "transmission" m = num q \/ get "iridescence" m = num q ->
  gt0 (num q) = false /\ tag_of (material m) = Some physicalTag.
Proof.
  intros Hq Hm.
  assert (T : truthy (num q) = true).
  { simpl. apply negb_true_iff. destruct (Qeq_bool q 0) eqn:E; [|reflexivity].
    apply Qeq_bool_iff in E. rewrite E in Hq. exfalso.
    exact (Qlt_irrefl 0 Hq). }
  split.
  - simpl. apply negb_false_iff, Qle_bool_iff, Qlt_le_weak, Hq.
  - rewrite material_tag, truthy_isPhysical.
    destruct Hm as [-> | ->]; rewrite T; [reflexivity|].
    rewrite orb_true_r. reflexivity.
Qed.

Lemma negative_feature_selects_physical_witness :
  get "transmission" negativeTransmission = num (-0.5)
  /\ gt0 (num (-0.5)) = false
  /\ tag_of (material negativeTransmission) = Some physicalTag.
Proof.
  split; [reflexivity|].
  apply (negative_feature_selects_physical negativeTransmission (-0.5)).
  - reflexivity.
  - left. reflexivity.
Defined.

(** ** The geometry *)

(** Whatever the shape, the element [Shape] returns has the resolved
    material as its only child and an [args] array. *)
Theorem geometry_wraps_material (shape : string) (m : node) :
  children_of (geometry shape m) = [m]
  /\ exists args, prop "args" (geometry shape m) = VArr args.
Proof.
  unfold geometry. split_switch; (split; [reflexivity | eexists; reflexivity]).
Qed.

(** The [switch] has a case of its own for every key of [shapes]: two
    different keys of the catalog get different kinds of geometry, so no
    selectable shape other than [sphere] ends in the [default] branch. *)
Theorem geometry_distinct_per_key (k1 k2 : string) (m : node) :
  In k1 (Object_keys shapes) ->
  In k2 (Object_keys shapes) ->
  k1 <> k2 ->
  tag_of (geometry k1 m) <> tag_of (geometry k2 m).
Proof.
  simpl. intros H1 H2 Hne E. apply Hne. clear Hne. revert E.
  repeat (destruct H1 as [<-|H1]);
    try contradiction;
    repeat (destruct H2 as [<-|H2]);
    try contradiction;
    intros E; try reflexivity; discriminate E.
Qed.

Lemma geometry_distinct_per_key_witness :
  In "cube" (Object_keys shapes)
  /\ In "torus" (Object_keys shapes)
  /\ tag_of (geometry "cube" (material glass))
     <> tag_of (geometry "torus" (material glass)).
Proof.
  assert (H1 : In "cube" (Object_keys shapes)) by (simpl; tauto).
  assert (H2 : In "torus" (Object_keys shapes)) by (simpl; tauto).
  split; [exact H1|]. split; [exact H2|].
  apply (geometry_distinct_per_key "cube" "torus" (material glass) H1 H2).
  discriminate.
Defined.

(** ** Rendering the scene *)

Section RenderFacts.

Variable Math_PI : Q.

Lemma render_Scene_missing shape k env blur fx :
  lookup k materials = None ->
  render (Scene Math_PI shape k env blur fx) = Throw TypeError.
Proof.
  intros E. unfold Scene. rewrite E. destruct fx; reflexivity.
Qed.

Lemma descendants_material m : descendants (material m) = [material m].
Proof. unfold material. destruct (truthy (isPhysical m)); reflexivity. Qed.

Lemma has_tag_material m :
  (has_tag physicalTag (material m), has_tag standardTag (material m))
  = (truthy (isPhysical m), negb (truthy (isPhysical m))).
Proof. unfold material. destruct (truthy (isPhysical m)); reflexivity. Qed.

Lemma is_ShapeEl_material m : is_ShapeEl (material m) = false.
Proof. unfold material. destruct (truthy (isPhysical m)); reflexivity. Qed.

Lemma render_Scene_ok shape k env blur fx m :
  lookup k materials = Some m ->
  exists tree,
    render (Scene Math_PI shape k env blur fx) = Ok tree
    /\ shape_elements tree = []
    /\ (by_tag physicalTag tree ++ by_tag standardTag tree)%list
       = [material m].
Proof.
  intros E. unfold Scene. rewrite E. simpl.
  pose proof (has_tag_material m) as HT.
  injection HT as HP HS.
  pose proof (is_ShapeEl_material m) as HE.
  pose proof (descendants_material m) as HD.
  unfold geometry. destruct fx; split_switch;
    (eexists; split; [reflexivity|]);
    unfold shape_elements, by_tag; simpl; rewrite HD; simpl;
    rewrite HP, HS, HE; destruct (truthy (isPhysical m)); split; reflexivity.
Qed.

(** Rendering the scene throws a [TypeError] exactly when the material key
    is not a key of the catalog (for a key that is not a name inherited from
    [Object.prototype]); the other four props play no part. *)
Theorem scene_render_throws_iff (shape k env : string) (blur : number)
    (fx : bool) :
  own_name k = true ->
  (render (Scene Math_PI shape k env blur fx) = Throw TypeError
   <-> ~ In k (Object_keys materials)).
Proof.
  intros _. destruct (lookup k materials) as [m|] eqn:E.
  - destruct (render_Scene_ok shape k env blur fx m E) as (t & Ht & _).
    rewrite Ht. split; [discriminate|].
    intros Hn. exfalso. exact (Hn (lookup_in_keys _ _ _ E)).
  - rewrite (render_Scene_missing _ _ _ _ _ E). split; [|reflexivity].
    intros _ Hin. destruct (lookup_of_key _ _ Hin) as [v Hv]. congruence.
Qed.

(** For a key of the catalog the rendered scene has no [<Shape/>] left to
    call and holds exactly one material element, the one resolved from the
    catalog's definition, whatever the shape, the environment, the blur and
    the effects switch. *)
Theorem rendered_scene_material (shape k env : string) (blur : number)
    (fx : bool) (m : obj) :
  lookup k materials = Some m ->
  exists tree,
    render (Scene Math_PI shape k env blur fx) = Ok tree
    /\ shape_elements tree = []
    /\ (by_tag physicalTag tree ++ by_tag standardTag tree)%list
       = [material m].
Proof. apply render_Scene_ok. Qed.

End RenderFacts.

Lemma scene_render_throws_iff_witness :
  own_name "marble" = true
  /\ ~ In "marble" (Object_keys materials)
  /\ render (Scene Math_PI_double "sphere" "marble" "studio" (Fin 0.6) true)
     = Throw TypeError.
Proof.
  pose proof (scene_render_throws_iff Math_PI_double "sphere" "marble" "studio" (Fin 0.6)
                true eq_refl) as [_ H].
  assert (Hn : ~ In "marble" (Object_keys materials)).
  { simpl. intros Hin.
    repeat (destruct Hin as [Hin|Hin]; [discriminate Hin|]). exact Hin. }
  split; [reflexivity|]. split; [exact Hn | exact (H Hn)].
Defined.

Lemma rendered_scene_material_witness :
  lookup "glass" materials = Some glass
  /\ exists tree,
       render (Scene Math_PI_double "cube" "glass" "city" (Fin 0.2) false) = Ok tree
       /\ shape_elements tree = []
       /\ (by_tag physicalTag tree ++ by_tag standardTag tree)%list
          = [material glass].
Proof.
  split; [reflexivity|].
  exact (rendered_scene_material Math_PI_double "cube" "glass" "city" (Fin 0.2) false glass
           eq_refl).
Defined.

(** ** The handlers *)

(** Two events that write different state variables can be handled in
    either order: the resulting state is the same. *)
Theorem handlers_commute (e1 e2 : event) (st : AppState) :
  writes e1 <> writes e2 ->
  handle e1 (handle e2 st) = handle e2 (handle e1 st).
Proof.
  intros H. destruct e1, e2; simpl in H; try (exfalso; apply H; reflexivity);
    reflexivity.
Qed.

Lemma handlers_commute_witness :
  writes (ClickShape "cube") <> writes (ChangeBlur (Fin 0.25))
  /\ handle (ClickShape "cube") (handle (ChangeBlur (Fin 0.25)) initialState)
     = handle (ChangeBlur (Fin 0.25)) (handle (ClickShape "cube") initialState).
Proof.
  assert (H : writes (ClickShape "cube") <> writes (ChangeBlur (Fin 0.25)))
    by discriminate.
  split; [exact H|].
  exact (handlers_commute (ClickShape "cube") (ChangeBlur (Fin 0.25))
           initialState H).
Defined.

(** An event that carries a value replaces whatever an earlier event wrote
    to the same state variable: only the last of the two counts. *)
Theorem last_write_wins (e1 e2 : event) (st : AppState) :
  writes e1 = writes e2 ->
  e1 <> ClickToggle ->
  handle e1 (handle e2 st) = handle e1 st.
Proof.
  intros H Hn. destruct e1, e2; simpl in H; try discriminate H;
    try reflexivity.
  exfalso. apply Hn. reflexivity.
Qed.

Lemma last_write_wins_witness :
  handle (ClickMaterial "gold") (handle (ClickMaterial "glass") initialState)
  = handle (ClickMaterial "gold") initialState.
Proof.
  apply (last_write_wins (ClickMaterial "gold") (ClickMaterial "glass")).
  - reflexivity.
  - discriminate.
Defined.

(** The panel toggle flips [panelOpen] and nothing else, so two clicks give
    back the state as it was; each click changes the width class of the
    sidebar and the position of the toggle button. *)
Theorem toggle_twice (st : AppState) :
  toggle_onClick (toggle_onClick st) = st
  /\ panelOpen (toggle_onClick st) = negb (panelOpen st)
  /\ sidebarClass (toggle_onClick st) <> sidebarClass st
  /\ toggleLeft (toggle_onClick st) <> toggleLeft st.
Proof.
  destruct st as [cm cs ce b fx aa po].
  unfold toggle_onClick, setPanelOpen, sidebarClass, toggleLeft. simpl.
  rewrite negb_involutive.
  destruct po; simpl; repeat split; discriminate.
Qed.

(** The canvas key, which makes React build a new canvas when it changes,
    is the same for two states exactly when their [antialias] is the same,
    so an event changes it if and only if it changes [antialias]. *)
Theorem canvas_key_follows_antialias (st1 st2 : AppState) :
  canvasKey st1 = canvasKey st2 <-> antialias st1 = antialias st2.
Proof.
  unfold canvasKey. split.
  - destruct (antialias st1), (antialias st2); simpl; intros H;
      try reflexivity; discriminate H.
  - intros ->. reflexivity.
Qed.

Section EventFacts.

Variable Math_PI : Q.

(** The scene does not depend on [antialias] or on [panelOpen]: an event
    that writes one of them leaves the scene as it was. *)
Theorem scene_ignores_antialias_and_panel (e : event) (st : AppState) :
  writes e = FAntialias \/ writes e = FPanel ->
  App_scene Math_PI (handle e st) = App_scene Math_PI st.
Proof.
  intros [H|H]; destruct e; simpl in H; try discriminate H; reflexivity.
Qed.

(** What an event writes is what the next scene shows: the clicked shape
    and material are the props of [<Shape/>] (the material looked up in the
    catalog), the chosen environment is the preset and the key of
    [<Environment/>], the slider's value is its blur, unclamped, and the
    effects checkbox decides whether there is an [<EffectComposer/>]. *)
Theorem scene_follows_events (st : AppState) (k : string) (v : number)
    (b : bool) :
  shape_elements (App_scene Math_PI (handle (ClickShape k) st))
  = [ShapeEl k (lookup (currentMaterial st) materials)]
  /\ shape_elements (App_scene Math_PI (handle (ClickMaterial k) st))
     = [ShapeEl (currentShape st) (lookup k materials)]
  /\ by_tag "Environment" (App_scene Math_PI (handle (ChangeEnv k) st))
     = [Elem "Environment" (Some (VStr k))
          [("preset", VStr k); ("background", VBool true);
           ("blur", VNum (envBlur st))] []]
  /\ map (prop "blur")
         (by_tag "Environment" (App_scene Math_PI (handle (ChangeBlur v) st)))
     = [VNum v]
  /\ length (by_tag "EffectComposer"
               (App_scene Math_PI (handle (ChangeEffects b) st)))
     = (if b then 1 else 0)%nat.
Proof.
  destruct st as [cm cs ce bl fx aa po].
  repeat split; try (destruct fx; reflexivity).
  destruct b; reflexivity.
Qed.

Lemma valid_state_material st :
  valid_state st = true ->
  exists m, lookup (currentMaterial st) materials = Some m.
Proof.
  unfold valid_state. intros H.
  apply andb_true_iff in H as [H _]. apply andb_true_iff in H as [H _].
  apply andb_true_iff in H as [_ H].
  apply lookup_of_key, mem_In, H.
Qed.

(** From the initial state, whatever events the interface offers and in
    whatever order, the state keeps its three keys inside the catalogs and
    its blur inside [0, 1], and its scene renders without throwing. *)
Theorem reachable_state_renders (st : AppState) :
  reachable st ->
  valid_state st = true
  /\ exists tree, render (App_scene Math_PI st) = Ok tree.
Proof.
  intros R.
  assert (V : valid_state st = true).
  { induction R as [|e st R IH Hoff]; [reflexivity|].
    unfold valid_state in *.
    apply andb_true_iff in IH as [IH Hb]. apply andb_true_iff in IH as [IH He].
    apply andb_true_iff in IH as [Hs Hm].
    destruct e; simpl in *; rewrite ?Hs, ?Hm, ?He, ?Hb, ?Hoff; reflexivity. }
  split; [exact V|].
  destruct (valid_state_material _ V) as [m Hm].
  destruct (render_Scene_ok Math_PI (currentShape st) (currentMaterial st)
              (currentEnv st) (envBlur st) (showEffects st) m Hm)
    as (t & Ht & _).
  exists t. exact Ht.
Qed.

End EventFacts.

Lemma scene_ignores_antialias_and_panel_witness :
  writes ClickToggle = FPanel
  /\ App_scene Math_PI_double (handle ClickToggle initialState)
     = App_scene Math_PI_double initialState.
Proof.
  split; [reflexivity|].
  exact (scene_ignores_antialias_and_panel Math_PI_double ClickToggle initialState
           (or_intror eq_refl)).
Defined.

Lemma reachable_state_renders_witness :
  reachable (handle (ChangeBlur (Fin 0.25))
               (handle (ClickMaterial "glass") initialState))
  /\ exists tree,
       render (App_scene Math_PI_double
                 (handle (ChangeBlur (Fin 0.25))
                    (handle (ClickMaterial "glass") initialState)))
       = Ok tree.
Proof.
  assert (R : reachable (handle (ChangeBlur (Fin 0.25))
                           (handle (ClickMaterial "glass") initialState))).
  { apply reachable_step; [|reflexivity].
    apply reachable_step; [|reflexivity].
    apply reachable_init. }
  split; [exact R|].
  exact (proj2 (reachable_state_renders Math_PI_double _ R)).
Defined.

(** ** The sidebar *)

(** After a click on the button of a shape, the selector has eight buttons
    and exactly one of them carries the active class, the clicked one; for a
    key that is not in the catalog no button would be active. *)
Theorem shape_selector_highlight (k : string) (st : AppState) :
  length (shapeSelector (shapeButton_onClick k st)) = 8%nat
  /\ filter shapeButton_active (shapeSelector (shapeButton_onClick k st))
     = if mem k (Object_keys shapes) then [shapeButton k k] else [].
Proof.
  split; [reflexivity|].
  unfold shapeSelector, shapeButton_onClick. simpl currentShape.
  unfold shapes, Object_keys. simpl map.
  unfold mem. simpl existsb. unfold shapeButton at 1 2 3 4 5 6 7 8.
  repeat match goal with
         | |- context [k =? String ?a ?s] =>
             let E := fresh "E" in
             destruct (k =? String a s) eqn:E;
             [apply String.eqb_eq in E; subst k; reflexivity|]
         end.
  reflexivity.
Qed.

(** Every category that a material of the catalog has is a key of the
    badge's colour table, with a colour class that is not empty: no badge of
    the material list is left without colours. *)
Theorem catalog_categories_have_colors :
  Forall (fun entry =>
            exists c, get "category" (snd entry) = VStr c
                      /\ has_key c colors = true
                      /\ className_of (CategoryBadge c) <> badgeBaseClass)
         materials.
Proof.
  unfold materials.
  repeat (constructor;
          [eexists; split; [reflexivity|]; split; [reflexivity|];
           discriminate|]).
  constructor.
Qed.

(** For a category that is not in the colour table (and is not a name
    inherited from [Object.prototype]) the badge has the base classes only,
    and it still shows the category as its text. *)
Theorem badge_unknown_category (category : string) :
  own_name category = true ->
  has_key category colors = false ->
  CategoryBadge category
  = el "span" [("className", VStr badgeBaseClass)] [Lit (VStr category)].
Proof.
  intros _ H. unfold CategoryBadge, badgeColor. unfold has_key in H.
  destruct (lookup category colors); [discriminate H|]. reflexivity.
Qed.

Lemma badge_unknown_category_witness :
  own_name "glassy" = true
  /\ has_key "glassy" colors = false
  /\ className_of (CategoryBadge "glassy") = badgeBaseClass.
Proof.
  split; [reflexivity|]. split; [reflexivity|].
  rewrite (badge_unknown_category "glassy" eq_refl eq_refl). reflexivity.
Defined.

Lemma substring_all s : substring 0 (String.length s) s = s.
Proof. induction s as [|c s IH]; simpl; [reflexivity|]. rewrite IH. reflexivity. Qed.

Lemma slice_1_cons c s : slice 1 (String c s) = s.
Proof.
  unfold slice. simpl. rewrite PeanoNat.Nat.sub_0_r. apply substring_all.
Qed.

Lemma toUpperCase_ascii_idempotent c :
  toUpperCase_ascii (toUpperCase_ascii c) = toUpperCase_ascii c.
Proof. destruct c as [[] [] [] [] [] [] [] []]; reflexivity. Qed.

Lemma envLabel_cons c s :
  envLabel (String c s) = String (toUpperCase_ascii c) s.
Proof. unfold envLabel. rewrite slice_1_cons. reflexivity. Qed.

(** The label of an environment option is the key with its first character
    in upper case: it has the length of the key, the same characters from
    the second on, and capitalising it again changes nothing.  (For the
    ASCII keys the model of [toUpperCase] covers.) *)
Theorem envLabel_capitalises (key : string) :
  is_ascii key = true ->
  String.length (envLabel key) = String.length key
  /\ slice 1 (envLabel key) = slice 1 key
  /\ charAt 0 (envLabel key) = toUpperCase (charAt 0 key)
  /\ envLabel (envLabel key) = envLabel key.
Proof.
  intros _. destruct key as [|c s]; [repeat split|].
  rewrite !envLabel_cons, !slice_1_cons, toUpperCase_ascii_idempotent.
  repeat split.
Qed.

Lemma envLabel_capitalises_witness :
  is_ascii "warehouse" = true
  /\ envLabel "warehouse" = "Warehouse"
  /\ String.length (envLabel "warehouse") = String.length "warehouse".
Proof.
  split; [reflexivity|]. split; [reflexivity|].
  exact (proj1 (envLabel_capitalises "warehouse" eq_refl)).
Defined.

(** The environment select offers one option per key of the catalog, in the
    order of the catalog; the value of an option is the key itself, so the
    handler can only store a key of the catalog; and the ten labels are
    different from one another. *)
Theorem env_select_options (st : AppState) :
  map (prop "value") (children_of (envSelect st))
  = map VStr (Object_keys environments)
  /\ prop "value" (envSelect st) = VStr (currentEnv st)
  /\ flat_map children_of (children_of (envSelect st))
     = map (fun l => Lit (VStr l))
         ["Studio"; "City"; "Sunset"; "Dawn"; "Night"; "Forest";
          "Apartment"; "Warehouse"; "Park"; "Lobby"]
  /\ forall v, In (VStr v) (map (prop "value") (children_of (envSelect st)))
               -> offered (ChangeEnv v) = true.
Proof.
  repeat split. intros v H. simpl in H. unfold offered. apply mem_In. simpl.
  repeat (destruct H as [H|H]; [injection H as <-; tauto|]).
  contradiction.
Qed.

Lemma length_append s1 s2 :
  String.length (s1 ++ s2) = (String.length s1 + String.length s2)%nat.
Proof. induction s1 as [|c s1 IH]; simpl; [reflexivity|]. rewrite IH. reflexivity. Qed.

(** The swatch of a material is its plain colour exactly when its metalness
    is not greater than 0.5 ([NaN] included); otherwise it is a gradient
    that runs from the colour through white back to the colour. *)
Theorem swatch_plain_iff (metalness : number) (color : string) :
  (swatchBackground metalness color = color
   <-> num_ltb (Fin 0.5) metalness = false)
  /\ (num_ltb (Fin 0.5) metalness = true ->
      swatchBackground metalness color
      = "linear-gradient(135deg, " ++ color ++ " 0%, #fff 50%, " ++ color
        ++ " 100%)").
Proof.
  unfold swatchBackground.
  destruct (num_ltb (Fin 0.5) metalness); split; try reflexivity;
    try (intros; reflexivity); try discriminate.
  - split; [|discriminate]. intros H. apply (f_equal String.length) in H.
    rewrite !length_append in H. simpl in H. lia.
  - split; reflexivity.
Qed.

Lemma swatch_plain_iff_witness :
  num_ltb (Fin 0.5) (Fin 0.95) = true
  /\ swatchBackground (Fin 0.95) "#8a8a8a"
     = "linear-gradient(135deg, #8a8a8a 0%, #fff 50%, #8a8a8a 100%)".
Proof.
  split; [reflexivity|].
  exact (proj2 (swatch_plain_iff (Fin 0.95) "#8a8a8a") eq_refl).
Defined.
